(** * A layered User application over an in-memory store

    Shallow embedding of the TypeScript sources
    (in-memory.database.ts, user.repository-impl.ts, user.repository.ts,
    user.service.ts, user.application.service.ts, user.controller.ts and
    main.ts) and the properties of the identifier-keyed store.

    Objects are modelled by records of their private fields, a method by
    a function from the receiver's state to a completion and the
    receiver's new state.  A JavaScript array is a finite [list]; a
    JavaScript string is a [string], compared by [String.eqb] where the
    source uses [===].  User objects are never mutated after construction
    and never compared by reference, so an object is modelled by its
    value. *)

From Stdlib Require Import String List Bool Arith Lia.
Import ListNotations.
Local Open Scope string_scope.
Local Open Scope list_scope.

(** ** Completions and methods *)

(** [new Error(message)]. *)
Inductive JsError : Type :=
| Error (message : string).

(** A call either returns a value or throws. *)
Inductive Completion (A : Type) : Type :=
| Returned (value : A)
| Thrown (e : JsError).

Arguments Returned {A} value.
Arguments Thrown {A} e.

(** A method of an object whose fields are [S], returning [A].  A throw
    keeps the state reached so far: nothing is rolled back. *)
Definition Method (S A : Type) : Type := S -> Completion A * S.

Definition ret {S A : Type} (value : A) : Method S A :=
  fun this => (Returned value, this).

Definition throw {S A : Type} (e : JsError) : Method S A :=
  fun this => (Thrown e, this).

Definition bind {S A B : Type} (m : Method S A) (k : A -> Method S B)
  : Method S B :=
  fun this =>
    match m this with
    | (Returned value, this') => k value this'
    | (Thrown e, this') => (Thrown e, this')
    end.

(** Read of a private field, [this.f]. *)
Definition read {S F : Type} (f : S -> F) : Method S F :=
  fun this => (Returned (f this), this).

(** In-place update of the receiver. *)
Definition modify {S : Type} (f : S -> S) : Method S unit :=
  fun this => (Returned tt, f this).

(** A call [this.f.m(...)] on the object held in field [f]: the callee
    runs on the field, and the field holds the callee's final state. *)
Definition on {S F A : Type} (f : S -> F) (with_f : F -> S -> S)
  (m : Method F A) : Method S A :=
  fun this =>
    let (completion, field') := m (f this) in
    (completion, with_f field' this).

Declare Scope method_scope.
Delimit Scope method_scope with method.
Notation "x <- m ;; k" := (bind m (fun x => k))
  (at level 61, m at next level, right associativity) : method_scope.
Notation "m ;; k" := (bind m (fun _ => k))
  (at level 61, right associativity) : method_scope.
Local Open Scope method_scope.

(** ** Array built-ins used by the sources *)

Module Array.

(** [arr.find(predicate)]: the first element, by increasing index, on
    which the predicate holds; [None] is [undefined]. *)
Fixpoint find {T : Type} (predicate : T -> bool) (arr : list T) : option T :=
  match arr with
  | [] => None
  | item :: rest => if predicate item then Some item else find predicate rest
  end.

(** [arr.push(item)]: the array with [item] after its last element. *)
Definition push {T : Type} (arr : list T) (item : T) : list T :=
  arr ++ [item].

(** The loop of [find] as the language defines it: an index [k] that
    runs from 0 up to the length, one predicate call per iteration.
    [fuel] bounds the iterations; [None] means the fuel ran out. *)
Fixpoint find_loop {T : Type} (predicate : T -> bool) (arr : list T)
  (fuel k : nat) : option (option T) :=
  match fuel with
  | 0 => None
  | S fuel' =>
      match nth_error arr k with
      | None => Some None
      | Some kValue =>
          if predicate kValue then Some (Some kValue)
          else find_loop predicate arr fuel' (S k)
      end
  end.

End Array.

(** ** domain/entities/user.ts *)

Module User.

(** Modelled from the spec: the User entity (domain/entities/user.ts) is
    not among the sources.  The spec says a record is constructed from
    three caller-supplied strings, an identifier, a display name and a
    secret, kept verbatim, and that it exposes the identifier as [id];
    the sources call [new User(id, username, password)] and read
    [item.id]. *)
Record t : Type := new { id : string; username : string; password : string }.

End User.

(** ** infrastructure/databases/in-memory.database.ts *)

Module InMemoryDatabase.

(** [private store: T[]]. *)
Record t (T : Type) : Type := Build { store : list T }.

Arguments Build {T} store.
Arguments store {T} _.

(** [private store: T[] = []]. *)
Definition new {T : Type} : t T := {| store := [] |}.

Section Generic.

Context {T : Type}.

(** The read [item.id] that the source performs at type [any]. *)
Variable item_id : T -> string.

(** [return this.store.find((item: any) => item.id === id);] *)
Definition getById (id : string) : Method (t T) (option T) :=
  store <- read store ;;
  ret (Array.find (fun item => item_id item =? id) store).

(** [this.store.push(item);] *)
Definition add (item : T) : Method (t T) unit :=
  modify (fun this => {| store := Array.push (store this) item |}).

End Generic.

End InMemoryDatabase.

(** ** domain/repositories/user.repository.ts *)

Module UserRepository.

Class UserRepositoryInterface (R : Type) : Type := {
  getById : string -> Method R User.t;
  add : User.t -> Method R unit
}.

End UserRepository.

(** ** infrastructure/repositories/user.repository-impl.ts *)

Module UserRepositoryImpl.

(** [private database: InMemoryDatabase<User>]. *)
Record t : Type := Build { database : InMemoryDatabase.t User.t }.

(** [this.database = new InMemoryDatabase<User>();] *)
Definition new : t := {| database := InMemoryDatabase.new |}.

Definition on_database {A : Type}
  (m : Method (InMemoryDatabase.t User.t) A) : Method t A :=
  on database (fun database' _ => {| database := database' |}) m.

(** [const user = this.database.getById(id);
     if (!user) { throw new Error("User not found"); }
     return user;]
    A User is an object, hence truthy: [!user] holds exactly when the
    lookup gave [undefined]. *)
Definition getById (id : string) : Method t User.t :=
  user <- on_database (InMemoryDatabase.getById User.id id) ;;
  match user with
  | None => throw (Error "User not found")
  | Some user => ret user
  end.

(** [this.database.add(user);] *)
Definition add (user : User.t) : Method t unit :=
  on_database (InMemoryDatabase.add user).

(** The array behind the repository. *)
Definition records (this : t) : list User.t :=
  InMemoryDatabase.store (database this).

End UserRepositoryImpl.

(** [class UserRepositoryImpl implements UserRepositoryInterface]. *)
#[export] Instance UserRepositoryImpl_implements
  : UserRepository.UserRepositoryInterface UserRepositoryImpl.t := {|
  UserRepository.getById := UserRepositoryImpl.getById;
  UserRepository.add := UserRepositoryImpl.add
|}.

(** ** domain/services/user.service.ts *)

Module UserService.

(** [constructor(private userRepository: UserRepositoryInterface) {}] *)
Record t (R : Type) : Type := new { userRepository : R }.

Arguments new {R} userRepository.
Arguments userRepository {R} _.

Section WithRepository.

Context {R : Type} `{UserRepository.UserRepositoryInterface R}.

Definition on_userRepository {A : Type} (m : Method R A) : Method (t R) A :=
  on userRepository (fun repository' _ => new repository') m.

(** [return this.userRepository.getById(id);] *)
Definition getUser (id : string) : Method (t R) User.t :=
  on_userRepository (UserRepository.getById id).

(** [this.userRepository.add(user);] *)
Definition createUser (user : User.t) : Method (t R) unit :=
  on_userRepository (UserRepository.add user).

End WithRepository.

End UserService.

(** ** application/user.application.service.ts *)

Module UserApplicationService.

(** [constructor(private userService: UserService) {}] *)
Record t (R : Type) : Type := new { userService : UserService.t R }.

Arguments new {R} userService.
Arguments userService {R} _.

Section WithRepository.

Context {R : Type} `{UserRepository.UserRepositoryInterface R}.

Definition on_userService {A : Type} (m : Method (UserService.t R) A)
  : Method (t R) A :=
  on userService (fun service' _ => new service') m.

(** [return this.userService.getUser(id);] *)
Definition getUser (id : string) : Method (t R) User.t :=
  on_userService (UserService.getUser id).

(** [this.userService.createUser(user);] *)
Definition createUser (user : User.t) : Method (t R) unit :=
  on_userService (UserService.createUser user).

End WithRepository.

End UserApplicationService.

(** ** interfaces/controllers/user.controller.ts *)

Module UserController.

(** [constructor(private userApplicationService: UserApplicationService) {}] *)
Record t (R : Type) : Type :=
  new { userApplicationService : UserApplicationService.t R }.

Arguments new {R} userApplicationService.
Arguments userApplicationService {R} _.

Section WithRepository.

Context {R : Type} `{UserRepository.UserRepositoryInterface R}.

Definition on_userApplicationService {A : Type}
  (m : Method (UserApplicationService.t R) A) : Method (t R) A :=
  on userApplicationService (fun application' _ => new application') m.

(** [return this.userApplicationService.getUser(id);] *)
Definition getUser (id : string) : Method (t R) User.t :=
  on_userApplicationService (UserApplicationService.getUser id).

(** [const user = new User(id, username, password);
     this.userApplicationService.createUser(user);] *)
Definition createUser (id username password : string) : Method (t R) unit :=
  let user := User.new id username password in
  on_userApplicationService (UserApplicationService.createUser user).

(** The repository at the bottom of the chain of private fields, and the
    controller rebuilt around a repository. *)
Definition repository (this : t R) : R :=
  UserService.userRepository
    (UserApplicationService.userService (userApplicationService this)).

Definition around (repository' : R) : t R :=
  new (UserApplicationService.new (UserService.new repository')).

End WithRepository.

End UserController.

(** ** main.ts *)

Module Main.

Definition userRepository : UserRepositoryImpl.t := UserRepositoryImpl.new.
Definition userService := UserService.new userRepository.
Definition userApplicationService := UserApplicationService.new userService.
Definition userController := UserController.new userApplicationService.

(** [userController.getUser("1"); userController.createUser("1", "user1", "password1");] *)
Definition execution : Method (UserController.t UserRepositoryImpl.t) unit :=
  UserController.getUser "1" ;;
  UserController.createUser "1" "user1" "password1".

End Main.

(** ** Sequences of calls on the repository *)

(** One call on the repository, by a caller that handles a thrown
    error and carries on. *)
Inductive Call : Type :=
| CallAdd (user : User.t)
| CallGetById (id : string).

Definition call (c : Call) (this : UserRepositoryImpl.t) : UserRepositoryImpl.t :=
  match c with
  | CallAdd user => snd (UserRepositoryImpl.add user this)
  | CallGetById id => snd (UserRepositoryImpl.getById id this)
  end.

Definition run (calls : list Call) (this : UserRepositoryImpl.t)
  : UserRepositoryImpl.t :=
  fold_left (fun this c => call c this) calls this.

(** The records passed to [add] along a sequence of calls, in order. *)
Fixpoint inserted (calls : list Call) : list User.t :=
  match calls with
  | [] => []
  | CallAdd user :: rest => user :: inserted rest
  | CallGetById _ :: rest => inserted rest
  end.

(** The NotFound condition. *)
Definition NotFound : JsError := Error "User not found".

(** ** A repository call seen from the layers above *)

Section Through.

Context {R : Type}.

(** A repository method run on the repository at the bottom of a
    controller, of an application service, of a domain service: the
    method's completion, and the layer around the repository as the
    method left it. *)
Definition through_controller {A : Type} (m : Method R A)
  : Method (UserController.t R) A :=
  fun this =>
    (fst (m (UserController.repository this)),
     UserController.around (snd (m (UserController.repository this)))).

Definition through_application {A : Type} (m : Method R A)
  : Method (UserApplicationService.t R) A :=
  fun this =>
    let repository :=
      UserService.userRepository (UserApplicationService.userService this) in
    (fst (m repository),
     UserApplicationService.new (UserService.new (snd (m repository)))).

Definition through_service {A : Type} (m : Method R A)
  : Method (UserService.t R) A :=
  fun this =>
    (fst (m (UserService.userRepository this)),
     UserService.new (snd (m (UserService.userRepository this)))).

End Through.

(** ** Sequences of calls on the controller *)

(** One call on the controller, and what its caller observes. *)
Inductive Request : Type :=
| RequestCreateUser (id username password : string)
| RequestGetUser (id : string).

Inductive Response : Type :=
| Created
| Got (user : User.t)
| Failed (e : JsError).

Definition created_or_failed (completion : Completion unit) : Response :=
  match completion with
  | Returned _ => Created
  | Thrown e => Failed e
  end.

Definition got_or_failed (completion : Completion User.t) : Response :=
  match completion with
  | Returned user => Got user
  | Thrown e => Failed e
  end.

Section Serving.

Context {R : Type} `{UserRepository.UserRepositoryInterface R}.

(** A caller that calls the controller, catches what it throws and
    carries on with the next request. *)
Definition handle (request : Request) (this : UserController.t R)
  : Response * UserController.t R :=
  match request with
  | RequestCreateUser id username password =>
      let (completion, this') :=
        UserController.createUser id username password this in
      (created_or_failed completion, this')
  | RequestGetUser id =>
      let (completion, this') := UserController.getUser id this in
      (got_or_failed completion, this')
  end.

Fixpoint serve (requests : list Request) (this : UserController.t R)
  : list Response * UserController.t R :=
  match requests with
  | [] => ([], this)
  | request :: rest =>
      let (response, this') := handle request this in
      let (responses, this'') := serve rest this' in
      (response :: responses, this'')
  end.

(** The same requests made of the repository itself. *)
Definition perform (request : Request) (repository : R) : Response * R :=
  match request with
  | RequestCreateUser id username password =>
      let (completion, repository') :=
        UserRepository.add (User.new id username password) repository in
      (created_or_failed completion, repository')
  | RequestGetUser id =>
      let (completion, repository') := UserRepository.getById id repository in
      (got_or_failed completion, repository')
  end.

Fixpoint perform_all (requests : list Request) (repository : R)
  : list Response * R :=
  match requests with
  | [] => ([], repository)
  | request :: rest =>
      let (response, repository') := perform request repository in
      let (responses, repository'') := perform_all rest repository' in
      (response :: responses, repository'')
  end.

End Serving.

(** The records that the [createUser] requests of a sequence construct,
    in order. *)
Fixpoint created (requests : list Request) : list User.t :=
  match requests with
  | [] => []
  | RequestCreateUser id username password :: rest =>
      User.new id username password :: created rest
  | RequestGetUser _ :: rest => created rest
  end.

(** * Properties *)

(** ** The array built-ins *)

Section ArrayFacts.

Context {T : Type}.
Variable predicate : T -> bool.

Lemma find_app (front back : list T) :
  Array.find predicate (front ++ back) =
  match Array.find predicate front with
  | Some item => Some item
  | None => Array.find predicate back
  end.
Proof.
  induction front as [|item front IH]; simpl.
  - reflexivity.
  - destruct (predicate item); [reflexivity | exact IH].
Qed.

Lemma find_None (arr : list T) :
  Array.find predicate arr = None <->
  (forall item, In item arr -> predicate item = false).
Proof.
  induction arr as [|item arr IH]; simpl.
  - split; [intros _ x [] | reflexivity].
  - destruct (predicate item) eqn:Eitem.
    + split; [discriminate |].
      intros Hall. rewrite (Hall item (or_introl eq_refl)) in Eitem.
      discriminate.
    + rewrite IH. split.
      * intros Hall x [<- | Hx]; [exact Eitem | exact (Hall x Hx)].
      * intros Hall x Hx. apply Hall. right. exact Hx.
Qed.

Lemma find_Some (arr : list T) (found : T) :
  Array.find predicate arr = Some found ->
  In found arr /\ predicate found = true.
Proof.
  induction arr as [|item arr IH]; simpl; [discriminate |].
  destruct (predicate item) eqn:Eitem.
  - intros [= <-]. split; [left; reflexivity | exact Eitem].
  - intros Hfound. destruct (IH Hfound) as [Hin Hp].
    split; [right; exact Hin | exact Hp].
Qed.

(** [find] stops at the first element that satisfies the predicate. *)
Lemma find_first (front back : list T) (item : T) :
  (forall x, In x front -> predicate x = false) ->
  predicate item = true ->
  Array.find predicate (front ++ item :: back) = Some item.
Proof.
  intros Hfront Hitem. rewrite find_app.
  rewrite (proj2 (find_None front) Hfront). simpl.
  rewrite Hitem. reflexivity.
Qed.

Lemma skipn_nth_error (arr : list T) (k : nat) :
  skipn k arr =
  match nth_error arr k with
  | Some kValue => kValue :: skipn (S k) arr
  | None => []
  end.
Proof.
  revert k. induction arr as [|item arr IH]; intros [|k]; try reflexivity.
  simpl skipn at 1. simpl nth_error. rewrite IH. reflexivity.
Qed.

(** The index loop, given more fuel than elements left, ends with what
    [find] gives on the elements from index [k] on. *)
Lemma find_loop_skipn (arr : list T) (fuel k : nat) :
  length arr - k < fuel ->
  Array.find_loop predicate arr fuel k =
  Some (Array.find predicate (skipn k arr)).
Proof.
  revert k. induction fuel as [|fuel IH]; intros k Hfuel; [lia |].
  simpl. rewrite (skipn_nth_error arr k).
  destruct (nth_error arr k) as [kValue|] eqn:Ek; [| reflexivity].
  simpl. destruct (predicate kValue); [reflexivity |].
  apply IH.
  assert (k < length arr) by (apply nth_error_Some; congruence).
  lia.
Qed.

End ArrayFacts.

(** ** What the two store classes compute *)

Lemma database_getById_eq {T : Type} (item_id : T -> string)
  (id : string) (this : InMemoryDatabase.t T) :
  InMemoryDatabase.getById item_id id this =
  (Returned (Array.find (fun item => item_id item =? id)
               (InMemoryDatabase.store this)), this).
Proof. reflexivity. Qed.

Lemma database_add_eq {T : Type} (item : T) (this : InMemoryDatabase.t T) :
  InMemoryDatabase.add item this =
  (Returned tt, InMemoryDatabase.Build (InMemoryDatabase.store this ++ [item])).
Proof. reflexivity. Qed.

Lemma repository_getById_eq (id : string) (this : UserRepositoryImpl.t) :
  UserRepositoryImpl.getById id this =
  (match Array.find (fun user => User.id user =? id)
           (UserRepositoryImpl.records this) with
   | Some user => Returned user
   | None => Thrown NotFound
   end, this).
Proof.
  destruct this as [[store]].
  unfold UserRepositoryImpl.getById, UserRepositoryImpl.on_database, bind, on.
  rewrite database_getById_eq.
  cbn [UserRepositoryImpl.records UserRepositoryImpl.database
       InMemoryDatabase.store].
  destruct (Array.find _ store); reflexivity.
Qed.

Lemma repository_add_eq (user : User.t) (this : UserRepositoryImpl.t) :
  UserRepositoryImpl.add user this =
  (Returned tt,
   UserRepositoryImpl.Build
     (InMemoryDatabase.Build (UserRepositoryImpl.records this ++ [user]))).
Proof. reflexivity. Qed.

Lemma records_call (c : Call) (this : UserRepositoryImpl.t) :
  UserRepositoryImpl.records (call c this) =
  UserRepositoryImpl.records this ++ inserted [c].
Proof.
  destruct c as [user | id]; simpl.
  - reflexivity.
  - rewrite repository_getById_eq. simpl. symmetry. apply app_nil_r.
Qed.

Lemma inserted_app (calls more : list Call) :
  inserted (calls ++ more) = inserted calls ++ inserted more.
Proof.
  induction calls as [|[user | id] calls IH]; simpl; congruence.
Qed.

Lemma records_run (calls : list Call) (this : UserRepositoryImpl.t) :
  UserRepositoryImpl.records (run calls this) =
  UserRepositoryImpl.records this ++ inserted calls.
Proof.
  revert this. induction calls as [|c calls IH]; intros this.
  - simpl. symmetry. apply app_nil_r.
  - change (run (c :: calls) this) with (run calls (call c this)).
    rewrite IH, records_call, <- app_assoc.
    change (c :: calls) with ([c] ++ calls). rewrite inserted_app.
    reflexivity.
Qed.

Lemma In_inserted (calls : list Call) (user : User.t) :
  In user (inserted calls) <-> In (CallAdd user) calls.
Proof.
  induction calls as [|[other | id] calls IH]; simpl.
  - tauto.
  - rewrite IH. split; (intros [E | Hin]; [left; congruence | right; exact Hin]).
  - rewrite IH. split; [tauto |].
    intros [E | Hin]; [discriminate | exact Hin].
Qed.

Lemma id_eqb_false (user : User.t) (id : string) :
  User.id user <> id -> (User.id user =? id) = false.
Proof. intros Hneq. apply String.eqb_neq. exact Hneq. Qed.

(** What a lookup gives after any sequence of calls on a new
    repository: the first inserted record with that identifier. *)
Lemma getById_run (calls : list Call) (id : string) :
  fst (UserRepositoryImpl.getById id (run calls UserRepositoryImpl.new)) =
  match Array.find (fun user => User.id user =? id) (inserted calls) with
  | Some user => Returned user
  | None => Thrown NotFound
  end.
Proof. rewrite repository_getById_eq, records_run. reflexivity. Qed.

(** ** Lookup after insertion *)

(** C1, as stated, fails: a record inserted under an identifier that an
    earlier record already carries is not the one [getById] returns. *)
Lemma getById_after_add_shadowed :
  let earlier := User.new "1" "user1" "password1" in
  let r := User.new "1" "user2" "password2" in
  let this := snd (UserRepositoryImpl.add earlier UserRepositoryImpl.new) in
  fst (UserRepositoryImpl.getById (User.id r)
         (snd (UserRepositoryImpl.add r this))) = Returned earlier
  /\ earlier <> r.
Proof. split; [reflexivity | discriminate]. Qed.

(** C1, amended: for every record [r] inserted via [add] when no record
    inserted before it carries the identifier of [r], a later
    [getById(r.id)], after any further calls, returns [r]. *)
Theorem getById_after_add (before after : list Call) (r : User.t)
  (Hfresh : forall u, In (CallAdd u) before -> User.id u <> User.id r) :
  fst (UserRepositoryImpl.getById (User.id r)
         (run (before ++ CallAdd r :: after) UserRepositoryImpl.new))
  = Returned r.
Proof.
  rewrite getById_run, inserted_app. simpl inserted.
  rewrite find_first; [reflexivity | | apply String.eqb_refl].
  intros u Hu. apply id_eqb_false, Hfresh, In_inserted, Hu.
Qed.

Lemma getById_after_add_witness :
  fst (UserRepositoryImpl.getById "2"
         (run ([CallAdd (User.new "1" "user1" "password1"); CallGetById "2"]
               ++ CallAdd (User.new "2" "user2" "password2")
               :: [CallAdd (User.new "2" "other" "password3")])
            UserRepositoryImpl.new))
  = Returned (User.new "2" "user2" "password2").
Proof.
  apply (getById_after_add
           [CallAdd (User.new "1" "user1" "password1"); CallGetById "2"]
           [CallAdd (User.new "2" "other" "password3")]
           (User.new "2" "user2" "password2")).
  intros u [E | [E | []]]; [injection E as <- | discriminate E].
  simpl. discriminate.
Defined.

(** ** The NotFound condition *)

(** C2: [getById(id)] throws NotFound exactly when no record with
    identifier [id] was ever inserted; on the new, empty store it throws
    NotFound for every [id]; and a call that does not throw returns a
    record that was inserted under [id], never a placeholder. *)
Theorem getById_NotFound_iff (calls : list Call) (id : string) :
  (fst (UserRepositoryImpl.getById id (run calls UserRepositoryImpl.new))
   = Thrown NotFound
   <-> forall u, In (CallAdd u) calls -> User.id u <> id)
  /\ UserRepositoryImpl.getById id UserRepositoryImpl.new
     = (Thrown NotFound, UserRepositoryImpl.new)
  /\ (forall u,
        fst (UserRepositoryImpl.getById id (run calls UserRepositoryImpl.new))
        = Returned u ->
        In (CallAdd u) calls /\ User.id u = id).
Proof.
  rewrite getById_run.
  split; [| split; [reflexivity |]].
  - destruct (Array.find _ (inserted calls)) as [found|] eqn:Efind.
    + apply find_Some in Efind. destruct Efind as [Hin Hid].
      apply In_inserted in Hin. apply String.eqb_eq in Hid.
      split; [discriminate |].
      intros Hnone. exfalso. exact (Hnone found Hin Hid).
    + split; [| reflexivity].
      intros _ u Hu. apply String.eqb_neq.
      apply (proj1 (find_None _ _) Efind). apply In_inserted. exact Hu.
  - intros u. destruct (Array.find _ (inserted calls)) as [found|] eqn:Efind;
      [| discriminate].
    intros [= <-]. apply find_Some in Efind. destruct Efind as [Hin Hid].
    split; [apply In_inserted; exact Hin | apply String.eqb_eq; exact Hid].
Qed.

(** main.ts: the first call throws on the empty store, so the second
    statement is never reached and the store stays empty. *)
Example execution_throws :
  Main.execution Main.userController = (Thrown NotFound, Main.userController).
Proof. reflexivity. Qed.

(** ** Duplicate identifiers *)

(** C3: no [add] throws, whatever identifiers the store already holds,
    and when the records inserted are [before ++ first :: after], with
    [first] the earliest one that carries [id], [getById(id)] returns
    [first], however many records in [after] carry [id] too. *)
Theorem getById_first_inserted (calls : list Call)
  (before after : list User.t) (first : User.t) (id : string)
  (Hinserted : inserted calls = before ++ first :: after)
  (Hbefore : forall u, In u before -> User.id u <> id)
  (Hfirst : User.id first = id) :
  (forall this u, fst (UserRepositoryImpl.add u this) = Returned tt)
  /\ fst (UserRepositoryImpl.getById id (run calls UserRepositoryImpl.new))
     = Returned first.
Proof.
  split; [reflexivity |].
  rewrite getById_run, Hinserted, find_first; [reflexivity | |].
  - intros u Hu. apply id_eqb_false. exact (Hbefore u Hu).
  - apply String.eqb_eq. exact Hfirst.
Qed.

Lemma getById_first_inserted_witness :
  let first := User.new "1" "user1" "password1" in
  let second := User.new "1" "user2" "password2" in
  let this := run [CallAdd first; CallAdd second] UserRepositoryImpl.new in
  (forall this u, fst (UserRepositoryImpl.add u this) = Returned tt)
  /\ fst (UserRepositoryImpl.getById "1" this) = Returned first.
Proof.
  intros first second this.
  apply (getById_first_inserted [CallAdd first; CallAdd second]
           [] [second] first "1").
  - reflexivity.
  - intros u [].
  - reflexivity.
Defined.

(** The scenario of the spec: the same identifier inserted twice with
    different names; the lookup gives the name inserted first. *)
Example first_inserted_name :
  let this :=
    run [CallAdd (User.new "1" "user1" "password1");
         CallAdd (User.new "1" "user2" "password1")] UserRepositoryImpl.new in
  match fst (UserRepositoryImpl.getById "1" this) with
  | Returned user => User.username user = "user1"
  | Thrown _ => False
  end.
Proof. reflexivity. Qed.

(** ** Insertion *)

(** C4: [add] always returns, and its only effect is the record appended
    after the last element of the array: in the database class for any
    element type, and in the repository. *)
Theorem add_appends {T : Type} (item : T) (db : InMemoryDatabase.t T)
  (user : User.t) (this : UserRepositoryImpl.t) :
  InMemoryDatabase.add item db
  = (Returned tt, InMemoryDatabase.Build (InMemoryDatabase.store db ++ [item]))
  /\ UserRepositoryImpl.add user this
     = (Returned tt,
        UserRepositoryImpl.Build
          (InMemoryDatabase.Build
             (InMemoryDatabase.store (UserRepositoryImpl.database this)
              ++ [user]))).
Proof.
  split.
  - unfold InMemoryDatabase.add, modify, Array.push. reflexivity.
  - unfold UserRepositoryImpl.add, UserRepositoryImpl.on_database, on.
    rewrite database_add_eq. reflexivity.
Qed.

(** ** Nothing is removed *)

(** C5: after any sequence of [add] and [getById] calls on a new
    repository, every record that was inserted is in the store, and
    whatever calls follow, the store then is the store now followed by
    further records. *)
Theorem inserted_records_stay (calls : list Call) (user : User.t)
  (Hadd : In (CallAdd user) calls) :
  In user (UserRepositoryImpl.records (run calls UserRepositoryImpl.new))
  /\ forall more,
       exists appended,
         UserRepositoryImpl.records
           (run (calls ++ more) UserRepositoryImpl.new)
         = UserRepositoryImpl.records (run calls UserRepositoryImpl.new)
           ++ appended.
Proof.
  split.
  - rewrite records_run. simpl. apply In_inserted. exact Hadd.
  - intros more. exists (inserted more).
    rewrite !records_run, inserted_app. reflexivity.
Qed.

Lemma inserted_records_stay_witness :
  let user := User.new "1" "user1" "password1" in
  let calls := [CallGetById "1"; CallAdd user; CallGetById "1";
                CallAdd (User.new "2" "user2" "password2")] in
  In user (UserRepositoryImpl.records (run calls UserRepositoryImpl.new))
  /\ forall more,
       exists appended,
         UserRepositoryImpl.records
           (run (calls ++ more) UserRepositoryImpl.new)
         = UserRepositoryImpl.records (run calls UserRepositoryImpl.new)
           ++ appended.
Proof.
  intros user calls.
  apply (inserted_records_stay calls user).
  simpl. right. left. reflexivity.
Defined.

(** ** The layers above the repository *)

Section Delegation.

Context {R : Type} `{UserRepository.UserRepositoryInterface R}.

Lemma on_userRepository_eq {A : Type} (m : Method R A)
  (this : UserService.t R) :
  UserService.on_userRepository m this = through_service m this.
Proof.
  unfold UserService.on_userRepository, on, through_service.
  destruct (m (UserService.userRepository this)) as [completion repository'].
  reflexivity.
Qed.

Lemma on_userService_eq {A : Type} (m : Method R A)
  (this : UserApplicationService.t R) :
  UserApplicationService.on_userService (UserService.on_userRepository m) this
  = through_application m this.
Proof.
  unfold UserApplicationService.on_userService, on.
  rewrite on_userRepository_eq. reflexivity.
Qed.

Lemma on_userApplicationService_eq {A : Type} (m : Method R A)
  (this : UserController.t R) :
  UserController.on_userApplicationService
    (UserApplicationService.on_userService (UserService.on_userRepository m))
    this
  = through_controller m this.
Proof.
  unfold UserController.on_userApplicationService, on.
  rewrite on_userService_eq. reflexivity.
Qed.

(** C6: at each layer [getUser(id)] gives the completion of the
    repository's [getById(id)], a throw included, and leaves the layer
    holding the repository as that call left it; [createUser] does the
    same with the repository's [add], the controller's on the record it
    constructs from its three arguments. *)
Theorem layers_delegate (id username password : string) (user : User.t)
  (controller : UserController.t R)
  (application : UserApplicationService.t R) (service : UserService.t R) :
  UserController.getUser id controller
  = through_controller (UserRepository.getById id) controller
  /\ UserApplicationService.getUser id application
     = through_application (UserRepository.getById id) application
  /\ UserService.getUser id service
     = through_service (UserRepository.getById id) service
  /\ UserController.createUser id username password controller
     = through_controller
         (UserRepository.add (User.new id username password)) controller
  /\ UserApplicationService.createUser user application
     = through_application (UserRepository.add user) application
  /\ UserService.createUser user service
     = through_service (UserRepository.add user) service.
Proof.
  repeat split.
  - apply on_userApplicationService_eq.
  - apply on_userService_eq.
  - apply on_userRepository_eq.
  - apply on_userApplicationService_eq.
  - apply on_userService_eq.
  - apply on_userRepository_eq.
Qed.

End Delegation.

(** With the repository of main.ts the interface methods are those of
    [UserRepositoryImpl]. *)
Lemma controller_getUser_eq (id : string)
  (this : UserController.t UserRepositoryImpl.t) :
  UserController.getUser id this
  = through_controller (UserRepositoryImpl.getById id) this.
Proof. apply on_userApplicationService_eq. Qed.

Lemma controller_createUser_eq (id username password : string)
  (this : UserController.t UserRepositoryImpl.t) :
  UserController.createUser id username password this
  = through_controller
      (UserRepositoryImpl.add (User.new id username password)) this.
Proof. apply on_userApplicationService_eq. Qed.

(** ** Records are stored as constructed *)

(** C7: when no record of the store carries [id],
    [createUser(id, username, password)] returns, appends the record of
    exactly these three strings, and a following [getUser(id)], like the
    repository's [getById(id)], returns that record. *)
Theorem createUser_then_getById (id username password : string)
  (this : UserController.t UserRepositoryImpl.t)
  (Habsent :
     forall u,
       In u (UserRepositoryImpl.records (UserController.repository this)) ->
       User.id u <> id) :
  let created := UserController.createUser id username password this in
  let stored := User.new id username password in
  fst created = Returned tt
  /\ UserRepositoryImpl.records (UserController.repository (snd created))
     = UserRepositoryImpl.records (UserController.repository this) ++ [stored]
  /\ fst (UserRepositoryImpl.getById id
            (UserController.repository (snd created))) = Returned stored
  /\ fst (UserController.getUser id (snd created)) = Returned stored
  /\ User.id stored = id
  /\ User.username stored = username
  /\ User.password stored = password.
Proof.
  intros created stored. subst created stored.
  rewrite controller_createUser_eq, controller_getUser_eq.
  unfold through_controller. cbn [fst snd].
  change (UserController.repository (UserController.around ?r)) with r.
  rewrite repository_add_eq. cbn [fst snd].
  rewrite repository_getById_eq. cbn [fst snd].
  change (UserRepositoryImpl.records (UserRepositoryImpl.Build
            (InMemoryDatabase.Build ?l))) with l.
  assert (Hfind :
    Array.find (fun user => User.id user =? id)
      (UserRepositoryImpl.records (UserController.repository this)
       ++ [User.new id username password])
    = Some (User.new id username password)).
  { apply find_first; [| apply String.eqb_refl].
    intros u Hu. apply id_eqb_false. exact (Habsent u Hu). }
  rewrite Hfind. repeat split.
Qed.

Lemma createUser_then_getById_witness :
  let created :=
    UserController.createUser "1" "user1" "password1" Main.userController in
  let stored := User.new "1" "user1" "password1" in
  fst created = Returned tt
  /\ UserRepositoryImpl.records (UserController.repository (snd created))
     = UserRepositoryImpl.records
         (UserController.repository Main.userController) ++ [stored]
  /\ fst (UserRepositoryImpl.getById "1"
            (UserController.repository (snd created))) = Returned stored
  /\ fst (UserController.getUser "1" (snd created)) = Returned stored
  /\ User.id stored = "1"
  /\ User.username stored = "user1"
  /\ User.password stored = "password1".
Proof.
  apply (createUser_then_getById "1" "user1" "password1" Main.userController).
  simpl. intros u [].
Defined.

(** ** Termination *)

(** C8: every call runs to completion.  The index loop of [find] over
    the store ends within one iteration more than the store has records,
    with the value [getById] returns; [add] returns; and the repository's
    two methods end with a completion and a final state. *)
Theorem calls_run_to_completion {T : Type} (item_id : T -> string)
  (item : T) (db : InMemoryDatabase.t T)
  (user : User.t) (this : UserRepositoryImpl.t) (id : string) :
  (exists found,
     Array.find_loop (fun item => item_id item =? id)
       (InMemoryDatabase.store db) (S (length (InMemoryDatabase.store db))) 0
     = Some found
     /\ InMemoryDatabase.getById item_id id db = (Returned found, db))
  /\ (exists db', InMemoryDatabase.add item db = (Returned tt, db'))
  /\ (exists completion this',
        UserRepositoryImpl.getById id this = (completion, this'))
  /\ (exists this', UserRepositoryImpl.add user this = (Returned tt, this')).
Proof.
  split; [| split; [| split]].
  - eexists. split; [| apply database_getById_eq].
    rewrite find_loop_skipn by lia. reflexivity.
  - eexists. apply database_add_eq.
  - do 2 eexists. apply repository_getById_eq.
  - eexists. apply repository_add_eq.
Qed.

(** ** Lookup leaves the store alone *)

(** C9: [getById] ends in the state it started in, in the database class
    and in the repository, whether it returns a record or throws. *)
Theorem getById_keeps_state {T : Type} (item_id : T -> string)
  (db : InMemoryDatabase.t T) (this : UserRepositoryImpl.t) (id : string) :
  snd (InMemoryDatabase.getById item_id id db) = db
  /\ snd (UserRepositoryImpl.getById id this) = this
  /\ (forall user this',
        UserRepositoryImpl.getById id this = (Returned user, this') ->
        this' = this)
  /\ (forall e this',
        UserRepositoryImpl.getById id this = (Thrown e, this') ->
        this' = this).
Proof.
  rewrite repository_getById_eq.
  split; [reflexivity | split; [reflexivity | split]];
    intros result this' Hcall; injection Hcall as _ <-; reflexivity.
Qed.

(** ** The error branch *)

(** C10: the database lookup always returns, a record or [undefined],
    [undefined] exactly when no record carries the identifier; and when
    some record of the store carries [id], the repository's [getById(id)]
    returns a record and does not throw. *)
Theorem getById_present_returns {T : Type} (item_id : T -> string)
  (db : InMemoryDatabase.t T) (key : string)
  (this : UserRepositoryImpl.t) (id : string)
  (Hpresent :
     exists u, In u (UserRepositoryImpl.records this) /\ User.id u = id) :
  (exists found,
     InMemoryDatabase.getById item_id key db = (Returned found, db)
     /\ (found = None <->
         forall item, In item (InMemoryDatabase.store db) ->
                      item_id item <> key))
  /\ (exists user,
        fst (UserRepositoryImpl.getById id this) = Returned user)
  /\ (forall e, fst (UserRepositoryImpl.getById id this) <> Thrown e).
Proof.
  split.
  - eexists. split; [apply database_getById_eq |].
    rewrite find_None. split; intros Hall item Hitem.
    + apply String.eqb_neq. exact (Hall item Hitem).
    + apply String.eqb_neq. exact (Hall item Hitem).
  - rewrite repository_getById_eq. simpl fst.
    destruct (Array.find _ (UserRepositoryImpl.records this))
      as [found|] eqn:Efind.
    + split; [exists found; reflexivity | discriminate].
    + exfalso. destruct Hpresent as [u [Hin Hid]].
      pose proof (proj1 (find_None _ _) Efind u Hin) as Hmiss.
      simpl in Hmiss. apply String.eqb_neq in Hmiss. exact (Hmiss Hid).
Qed.

Lemma getById_present_returns_witness :
  let user := User.new "1" "user1" "password1" in
  let this := snd (UserRepositoryImpl.add user UserRepositoryImpl.new) in
  (exists found,
     InMemoryDatabase.getById User.id "2" (UserRepositoryImpl.database this)
     = (Returned found, UserRepositoryImpl.database this)
     /\ (found = None <->
         forall item,
           In item (InMemoryDatabase.store (UserRepositoryImpl.database this)) ->
           User.id item <> "2"))
  /\ (exists user, fst (UserRepositoryImpl.getById "1" this) = Returned user)
  /\ (forall e, fst (UserRepositoryImpl.getById "1" this) <> Thrown e).
Proof.
  intros user this.
  apply (getById_present_returns User.id (UserRepositoryImpl.database this)
           "2" this "1").
  exists user. split; [left; reflexivity | reflexivity].
Defined.

(** * Further properties of the store *)

(** ** A lookup after an insertion *)


(** ** Answers do not change *)

Lemma find_app_Some {T : Type} (predicate : T -> bool)
  (front back : list T) (found : T) :
  Array.find predicate front = Some found ->
  Array.find predicate (front ++ back) = Some found.
Proof. intros Hfound. rewrite find_app, Hfound. reflexivity. Qed.

(** X2: Once [getById(id)] has returned a record, it returns that record
    after any further [add] and [getById] calls, also after insertions
    under the same identifier. *)
Theorem getById_answer_stable (calls : list Call)
  (this : UserRepositoryImpl.t) (id : string) (user : User.t)
  (Hfound : fst (UserRepositoryImpl.getById id this) = Returned user) :
  fst (UserRepositoryImpl.getById id (run calls this)) = Returned user.
Proof.
  rewrite repository_getById_eq in *. cbn [fst] in *.
  rewrite records_run.
  destruct (Array.find _ (UserRepositoryImpl.records this))
    as [found|] eqn:Efind; [| discriminate].
  rewrite (find_app_Some _ _ _ _ Efind). exact Hfound.
Qed.

Lemma getById_answer_stable_witness :
  let user := User.new "1" "user1" "password1" in
  let this := snd (UserRepositoryImpl.add user UserRepositoryImpl.new) in
  fst (UserRepositoryImpl.getById "1"
         (run [CallAdd (User.new "1" "user2" "password2"); CallGetById "3";
               CallAdd (User.new "2" "user3" "password3")] this))
  = Returned user.
Proof.
  intros user this.
  apply (getById_answer_stable _ this "1" user).
  reflexivity.
Defined.

(** ** The contents of the store *)

(** X3: After any sequence of calls, the store is the store before followed
    by the records given to [add], once per call and in call order,
    duplicates kept, while [getById] calls add nothing; a sequence run
    in two parts ends in the same state. *)
Theorem store_is_inserted_records (calls more : list Call)
  (this : UserRepositoryImpl.t) :
  UserRepositoryImpl.records (run calls this)
  = UserRepositoryImpl.records this ++ inserted calls
  /\ length (UserRepositoryImpl.records (run calls this))
     = length (UserRepositoryImpl.records this)
       + length (filter (fun c => match c with
                                  | CallAdd _ => true
                                  | CallGetById _ => false
                                  end) calls)
  /\ run (calls ++ more) this = run more (run calls this).
Proof.
  split; [apply records_run | split].
  - rewrite records_run, length_app. f_equal.
    induction calls as [|[u | i] calls IH]; simpl; congruence.
  - unfold run. apply fold_left_app.
Qed.

(** ** Which record a lookup returns *)

Lemma find_Some_split {T : Type} (predicate : T -> bool)
  (arr : list T) (found : T) :
  Array.find predicate arr = Some found ->
  exists front back,
    arr = front ++ found :: back
    /\ (forall item, In item front -> predicate item = false)
    /\ predicate found = true.
Proof.
  induction arr as [|item arr IH]; simpl; [discriminate |].
  destruct (predicate item) eqn:Eitem.
  - intros [= <-]. exists [], arr. repeat split; [intros x [] | exact Eitem].
  - intros Hfound. destruct (IH Hfound) as [front [back [-> [Hfront Hp]]]].
    exists (item :: front), back. repeat split; [| exact Hp].
    intros x [<- | Hx]; [exact Eitem | exact (Hfront x Hx)].
Qed.

(** X4: In any state of the repository, [getById(id)] returns [user] exactly
    when [user] is in the store under [id] with no record under [id]
    before it; a returned record therefore always carries the identifier
    asked for. *)
Theorem getById_returns_iff_first (this : UserRepositoryImpl.t)
  (id : string) (user : User.t) :
  fst (UserRepositoryImpl.getById id this) = Returned user
  <-> exists front back,
        UserRepositoryImpl.records this = front ++ user :: back
        /\ (forall u, In u front -> User.id u <> id)
        /\ User.id user = id.
Proof.
  rewrite repository_getById_eq. cbn [fst]. split.
  - destruct (Array.find _ (UserRepositoryImpl.records this))
      as [found|] eqn:Efind; [| discriminate].
    intros [= <-]. apply find_Some_split in Efind.
    destruct Efind as [front [back [Hsplit [Hfront Hid]]]].
    exists front, back. split; [exact Hsplit | split].
    + intros u Hu. apply String.eqb_neq. exact (Hfront u Hu).
    + apply String.eqb_eq. exact Hid.
  - intros [front [back [-> [Hfront Hid]]]].
    rewrite find_first; [reflexivity | | apply String.eqb_eq; exact Hid].
    intros u Hu. apply id_eqb_false. exact (Hfront u Hu).
Qed.

(** * Further properties of the layers *)

(** ** The controller over the in-memory repository *)

(** X5: [createUser] never refuses: for any three strings, empty ones and an
    identifier already in the store included, it returns, and the
    controller then holds the store with the constructed record at its
    end. *)
Theorem createUser_always_appends (id username password : string)
  (this : UserController.t UserRepositoryImpl.t) :
  UserController.createUser id username password this
  = (Returned tt,
     UserController.around
       (UserRepositoryImpl.Build
          (InMemoryDatabase.Build
             (UserRepositoryImpl.records (UserController.repository this)
              ++ [User.new id username password])))).
Proof.
  rewrite controller_createUser_eq. unfold through_controller.
  rewrite repository_add_eq. reflexivity.
Qed.

Lemma around_repository {R : Type} (this : UserController.t R) :
  UserController.around (UserController.repository this) = this.
Proof. destruct this as [[[repository]]]. reflexivity. Qed.

(** X6: [getUser] on the controller returns the first record of the store
    that carries [id], throws the repository's error unchanged when
    there is none, and leaves the controller as it was either way. *)
Theorem getUser_answer (id : string)
  (this : UserController.t UserRepositoryImpl.t) :
  UserController.getUser id this
  = (match Array.find (fun user => User.id user =? id)
             (UserRepositoryImpl.records (UserController.repository this))
     with
     | Some user => Returned user
     | None => Thrown (Error "User not found")
     end, this).
Proof.
  rewrite controller_getUser_eq. unfold through_controller.
  rewrite repository_getById_eq. cbn [fst snd].
  rewrite around_repository. reflexivity.
Qed.

(** ** A throw ends the caller *)

(** X7: When no record of the store carries [id], whatever follows a
    [getUser(id)] that is not caught is not run: the sequence ends with
    the thrown error and the controller unchanged.  This is the run of
    main.ts, whose [createUser] is never reached. *)
Theorem getUser_miss_skips_rest {B : Type} (id : string)
  (rest : Method (UserController.t UserRepositoryImpl.t) B)
  (this : UserController.t UserRepositoryImpl.t)
  (Habsent :
     forall u,
       In u (UserRepositoryImpl.records (UserController.repository this)) ->
       User.id u <> id) :
  (UserController.getUser id ;; rest) this
  = (Thrown (Error "User not found"), this).
Proof.
  unfold bind. rewrite controller_getUser_eq. unfold through_controller.
  rewrite repository_getById_eq. cbn [fst snd]. rewrite around_repository.
  assert (Hmiss :
    Array.find (fun user => User.id user =? id)
      (UserRepositoryImpl.records (UserController.repository this)) = None).
  { apply find_None. intros u Hu. apply id_eqb_false. exact (Habsent u Hu). }
  rewrite Hmiss. reflexivity.
Qed.

Lemma getUser_miss_skips_rest_witness :
  Main.execution Main.userController
  = (Thrown (Error "User not found"), Main.userController).
Proof.
  apply (getUser_miss_skips_rest "1"
           (UserController.createUser "1" "user1" "password1")
           Main.userController).
  simpl. intros u [].
Defined.

(** ** Sequences of requests *)

Section ServingFacts.

Context {R : Type} `{UserRepository.UserRepositoryInterface R}.

Lemma handle_perform (request : Request) (this : UserController.t R) :
  handle request this
  = (fst (perform request (UserController.repository this)),
     UserController.around
       (snd (perform request (UserController.repository this)))).
Proof.
  destruct request as [id username password | id]; unfold handle, perform.
  - change (UserController.createUser id username password this)
      with (UserController.on_userApplicationService
              (UserApplicationService.on_userService
                 (UserService.on_userRepository
                    (UserRepository.add (User.new id username password))))
              this).
    rewrite on_userApplicationService_eq. unfold through_controller.
    destruct (UserRepository.add _ (UserController.repository this)).
    reflexivity.
  - change (UserController.getUser id this)
      with (UserController.on_userApplicationService
              (UserApplicationService.on_userService
                 (UserService.on_userRepository (UserRepository.getById id)))
              this).
    rewrite on_userApplicationService_eq. unfold through_controller.
    destruct (UserRepository.getById _ (UserController.repository this)).
    reflexivity.
Qed.

(** X8: For any implementation of the repository interface, a sequence of
    controller calls gives the responses, and leaves the repository in
    the state, that the same sequence of [add] and [getById] calls on the
    repository gives: the three layers keep no state and change no
    answer over a whole run. *)
Theorem serve_is_perform_all (requests : list Request)
  (this : UserController.t R) :
  serve requests this
  = (fst (perform_all requests (UserController.repository this)),
     UserController.around
       (snd (perform_all requests (UserController.repository this)))).
Proof.
  revert this. induction requests as [|request requests IH]; intros this.
  - simpl. rewrite around_repository. reflexivity.
  - simpl. rewrite handle_perform.
    destruct (perform request (UserController.repository this))
      as [response repository'] eqn:Eperform.
    cbn [fst snd]. rewrite IH.
    change (UserController.repository (UserController.around repository'))
      with repository'.
    destruct (perform_all requests repository') as [responses repository''].
    reflexivity.
Qed.

End ServingFacts.

(** ** Requests served by the controller of main.ts *)

Lemma handle_GetUser_eq (id : string)
  (this : UserController.t UserRepositoryImpl.t) :
  handle (RequestGetUser id) this
  = (match Array.find (fun user => User.id user =? id)
             (UserRepositoryImpl.records (UserController.repository this))
     with
     | Some user => Got user
     | None => Failed NotFound
     end, this).
Proof.
  unfold handle. rewrite controller_getUser_eq. unfold through_controller.
  rewrite repository_getById_eq. cbn [fst snd]. rewrite around_repository.
  destruct (Array.find _ _); reflexivity.
Qed.

Lemma records_handle (request : Request)
  (this : UserController.t UserRepositoryImpl.t) :
  UserRepositoryImpl.records
    (UserController.repository (snd (handle request this)))
  = UserRepositoryImpl.records (UserController.repository this)
    ++ created [request].
Proof.
  destruct request as [id username password | id].
  - unfold handle. rewrite controller_createUser_eq.
    unfold through_controller. rewrite repository_add_eq. reflexivity.
  - rewrite handle_GetUser_eq. simpl. symmetry. apply app_nil_r.
Qed.

Lemma records_serve (requests : list Request)
  (this : UserController.t UserRepositoryImpl.t) :
  UserRepositoryImpl.records
    (UserController.repository (snd (serve requests this)))
  = UserRepositoryImpl.records (UserController.repository this)
    ++ created requests.
Proof.
  revert this. induction requests as [|request requests IH]; intros this.
  - simpl. symmetry. apply app_nil_r.
  - simpl serve.
    pose proof (records_handle request this) as Hstep.
    destruct (handle request this) as [response this'].
    specialize (IH this').
    destruct (serve requests this') as [responses this''].
    cbn [snd] in *. rewrite IH, Hstep, <- app_assoc.
    destruct request; reflexivity.
Qed.

Lemma created_app (requests more : list Request) :
  created (requests ++ more) = created requests ++ created more.
Proof.
  induction requests as [|[id username password | id] requests IH];
    simpl; congruence.
Qed.

Lemma In_created (requests : list Request) (user : User.t) :
  In user (created requests)
  <-> In (RequestCreateUser (User.id user) (User.username user)
            (User.password user)) requests.
Proof.
  destruct user as [id username password]. simpl.
  induction requests as [|[id' username' password' | id'] requests IH]; simpl.
  - tauto.
  - rewrite IH. split; (intros [E | Hin]; [left; congruence | right; exact Hin]).
  - rewrite IH. split; [tauto |].
    intros [E | Hin]; [discriminate | exact Hin].
Qed.

(** X9: Served from the controller that main.ts builds, after any sequence
    of requests a [getUser(id)] fails with the not-found error exactly
    when no [createUser] of the sequence carried [id]; otherwise it
    answers with the three strings of the first [createUser] that did;
    and it leaves the controller as it found it. *)
Theorem getUser_after_requests (requests : list Request) (id : string) :
  let this := snd (serve requests Main.userController) in
  (fst (handle (RequestGetUser id) this) = Failed NotFound
   <-> forall username password,
         ~ In (RequestCreateUser id username password) requests)
  /\ (forall before username password after,
        requests = before ++ RequestCreateUser id username password :: after ->
        (forall username' password',
           ~ In (RequestCreateUser id username' password') before) ->
        fst (handle (RequestGetUser id) this)
        = Got (User.new id username password))
  /\ snd (handle (RequestGetUser id) this) = this.
Proof.
  intros this. subst this. rewrite handle_GetUser_eq, records_serve.
  cbn [fst snd]. simpl app.
  split; [| split; [| reflexivity]].
  - destruct (Array.find _ (created requests)) as [found|] eqn:Efind.
    + split; [discriminate |]. intros Hnone. exfalso.
      apply find_Some in Efind. destruct Efind as [Hin Hid].
      apply In_created in Hin. apply String.eqb_eq in Hid.
      rewrite Hid in Hin. exact (Hnone _ _ Hin).
    + split; [| reflexivity]. intros _ username password Hin.
      apply (In_created requests (User.new id username password)) in Hin.
      pose proof (proj1 (find_None _ _) Efind _ Hin) as Hmiss.
      simpl in Hmiss. rewrite String.eqb_refl in Hmiss. discriminate.
  - intros before username password after -> Hbefore.
    rewrite created_app. simpl created.
    rewrite find_first; [reflexivity | | apply String.eqb_refl].
    intros u Hu. apply id_eqb_false. intros Hid.
    apply In_created in Hu. rewrite Hid in Hu. exact (Hbefore _ _ Hu).
Qed.
